(** * FinishLine: the GPS track viewer of [src/main.py]

    A shallow embedding of the five functions of [main.py]
    ([parse_gpx], [rotate_coordinates], [filter_coordinates_by_time],
    [plot_path] and the [update_plot] callback of
    [create_gui_with_time_filter]) and the properties its design document
    states about them.

    Modelling choices.
    - Python [float]s are read as real numbers ([R]): every statement below
      is about ideal real arithmetic, rounding is not modelled.
    - Python [str] is read as [string]; [<=] on [str] is the lexicographic
      order on code points, which is [String.leb] on the encoded text.
    - Exceptions are a result type, console output and the plotting calls
      are a trace of events. *)

From Stdlib Require Import Reals Lra List Arith NArith Lia Bool.
From Stdlib Require Import Ascii String.
Import ListNotations.

Local Open Scope R_scope.

(** ** Exceptions and effects *)

Inductive exn : Type :=
| FileNotFoundError
| GPXException
| ValueError
| ZeroDivisionError.

Inductive result (A : Type) : Type :=
| Ok (a : A)
| Raise (e : exn).

Arguments Ok {A} a.
Arguments Raise {A} e.

(** ** Samples, coordinates and timestamps *)

(** The fields of a Python [datetime] that [strftime] reads, and the date. *)
Record datetime : Type := mkDatetime {
  year : nat; month : nat; day : nat;
  hour : nat; minute : nat; second : nat
}.

(** The range invariant Python's [datetime] keeps on the time of day. *)
Definition valid_time (t : datetime) : Prop :=
  (hour t < 24)%nat /\ (minute t < 60)%nat.

Definition coordinate : Type := (R * R)%type.
Definition sample : Type := (R * R * datetime)%type.

Definition digit (d : nat) : ascii := ascii_of_nat (48 + d).

(** [%H] and [%M]: two decimal digits, padded with a zero. *)
Definition two_digits (n : nat) : string :=
  String (digit (n / 10)) (String (digit (n mod 10)) EmptyString).

(** [time.strftime("%H:%M")] *)
Definition strftime_HM (t : datetime) : string :=
  (two_digits (hour t) ++ ":" ++ two_digits (minute t))%string.

(** Python's [a <= b] on [str]. *)
Definition str_le (a b : string) : bool := String.leb a b.

(** Python's [a > b] on [str]. *)
Definition str_gt (a b : string) : bool := String.ltb b a.

(** ** [filter_coordinates_by_time] (main.py, lines 59-76) *)

(** The loop of lines 72-75, [filtered] being the accumulator. *)
Fixpoint filter_loop (data : list sample) (start_time end_time : string)
    (filtered : list coordinate) : list coordinate :=
  match data with
  | [] => filtered
  | (lat, lon, time) :: rest =>
      let time_str := strftime_HM time in
      if str_le start_time time_str && str_le time_str end_time
      then filter_loop rest start_time end_time (filtered ++ [(lat, lon)])
      else filter_loop rest start_time end_time filtered
  end.

Definition filter_coordinates_by_time (data : list sample)
    (start_time end_time : string) : list coordinate :=
  filter_loop data start_time end_time [].

(** The time filter as the design document words it: keep the samples whose
    formatted time of day lies between the two bounds, drop the timestamp. *)
Definition in_window (start_time end_time : string) (s : sample) : bool :=
  str_le start_time (strftime_HM (snd s)) && str_le (strftime_HM (snd s)) end_time.

Definition drop_time (s : sample) : coordinate := fst s.

Definition time_filter_spec (data : list sample) (start_time end_time : string)
    : list coordinate :=
  map drop_time (filter (in_window start_time end_time) data).

(** A zero-padded 24-hour ["HH:MM"] string. *)
Definition is_digit (c : ascii) : bool :=
  (48 <=? nat_of_ascii c)%nat && (nat_of_ascii c <=? 57)%nat.

Definition digit_val (c : ascii) : nat := nat_of_ascii c - 48.

Definition well_formed_hhmm (s : string) : bool :=
  match s with
  | String h1 (String h2 (String c (String m1 (String m2 EmptyString)))) =>
      is_digit h1 && is_digit h2 && Ascii.eqb c ":" && is_digit m1 && is_digit m2
      && (10 * digit_val h1 + digit_val h2 <? 24)%nat
      && (10 * digit_val m1 + digit_val m2 <? 60)%nat
  | _ => false
  end.

(** ** Python's [max], [min] and [/] on floats *)

(** [max(xs)]: the first element, replaced by every later one that is
    strictly greater; [ValueError] on an empty sequence. *)
Definition py_max (xs : list R) : result R :=
  match xs with
  | [] => Raise ValueError
  | x :: rest =>
      Ok (fold_left (fun best item => if Rgt_dec item best then item else best) rest x)
  end.

(** [min(xs)], symmetrically. *)
Definition py_min (xs : list R) : result R :=
  match xs with
  | [] => Raise ValueError
  | x :: rest =>
      Ok (fold_left (fun best item => if Rlt_dec item best then item else best) rest x)
  end.

(** [a / b] raises on a zero divisor. *)
Definition py_div (a b : R) : result R :=
  if Req_dec_T b 0 then Raise ZeroDivisionError else Ok (a / b).

(** [math.radians] *)
Definition radians (deg : R) : R := deg * (PI / 180).

(** ** [rotate_coordinates] (main.py, lines 23-57) *)

(** The loop of lines 42-55, [rotated] being the accumulator. *)
Fixpoint rotate_loop (coordinates : list coordinate)
    (cos_theta sin_theta center_lat center_lon : R)
    (rotated : list coordinate) : list coordinate :=
  match coordinates with
  | [] => rotated
  | (lat, lon) :: rest =>
      let lat_shifted := lat - center_lat in
      let lon_shifted := lon - center_lon in
      let lat_rotated := lat_shifted * cos_theta - lon_shifted * sin_theta in
      let lon_rotated := lat_shifted * sin_theta + lon_shifted * cos_theta in
      let lat_final := lat_rotated + center_lat in
      let lon_final := lon_rotated + center_lon in
      rotate_loop rest cos_theta sin_theta center_lat center_lon
                  (rotated ++ [(lat_final, lon_final)])
  end.

Definition rotate_coordinates (coordinates : list coordinate) (angle : R)
    (center : coordinate) : list coordinate :=
  let angle_rad := radians angle in
  let cos_theta := cos angle_rad in
  let sin_theta := sin angle_rad in
  let (center_lat, center_lon) := center in
  rotate_loop coordinates cos_theta sin_theta center_lat center_lon [].

(** The rotation as the design document words it, on one coordinate:
    translate by [-center], turn by [theta] radians, translate back. *)
Definition rotate_about (center : coordinate) (theta : R) (p : coordinate)
    : coordinate :=
  let dlat := fst p - fst center in
  let dlon := snd p - snd center in
  (dlat * cos theta - dlon * sin theta + fst center,
   dlat * sin theta + dlon * cos theta + snd center).

(** ** Console and plotting effects *)

(** What one call of [plot_path] hands to matplotlib: the plotted line, the
    axis limits and the two numbers of the title. *)
Record figure : Type := mkFigure {
  plot_xs : list R;
  plot_ys : list R;
  xlim : R * R;
  ylim : R * R;
  title_zoom : R;
  title_rotation : R
}.

Inductive event : Type :=
| Printed (msg : string)
| Shown (fig : figure).

(** A computation: the events it emitted, then its value or its exception. *)
Definition io (A : Type) : Type := (list event * result A)%type.

Definition ret {A : Type} (a : A) : io A := ([], Ok a).

Definition bind {A B : Type} (m : io A) (k : A -> io B) : io B :=
  match m with
  | (tr, Ok a) => let (tr', r) := k a in (tr ++ tr', r)
  | (tr, Raise e) => (tr, Raise e)
  end.

Definition lift {A : Type} (r : result A) : io A := ([], r).

Definition print (msg : string) : io unit := ([Printed msg], Ok tt).

Definition show (fig : figure) : io unit := ([Shown fig], Ok tt).

Notation "x <- m ;; k" := (bind m (fun x => k))
  (at level 61, m at next level, right associativity).
Notation "m ;;; k" := (bind m (fun _ => k))
  (at level 61, right associativity).

(** ** [plot_path] (main.py, lines 78-117) *)

(** Lines 92-95: the midpoint of the bounding box. *)
Definition path_center (coordinates : list coordinate) : result coordinate :=
  let latitudes := map fst coordinates in
  let longitudes := map snd coordinates in
  match py_max latitudes, py_min latitudes, py_max longitudes, py_min longitudes with
  | Ok max_lat, Ok min_lat, Ok max_lon, Ok min_lon =>
      Ok ((max_lat + min_lat) / 2, (max_lon + min_lon) / 2)
  | Raise e, _, _, _ | _, Raise e, _, _ | _, _, Raise e, _ | _, _, _, Raise e =>
      Raise e
  end.

Definition plot_path (coordinates : list coordinate) (zoom rotation : R)
    : io unit :=
  match coordinates with
  | [] => print "No coordinates to plot."
  | _ :: _ =>
      center <- lift (path_center coordinates) ;;
      let (center_lat, center_lon) := center in
      let rotated_coordinates := rotate_coordinates coordinates rotation center in
      let rotated_latitudes := map fst rotated_coordinates in
      let rotated_longitudes := map snd rotated_coordinates in
      hi_lat <- lift (py_max rotated_latitudes) ;;
      lo_lat <- lift (py_min rotated_latitudes) ;;
      range_lat <- lift (py_div (hi_lat - lo_lat) zoom) ;;
      hi_lon <- lift (py_max rotated_longitudes) ;;
      lo_lon <- lift (py_min rotated_longitudes) ;;
      range_lon <- lift (py_div (hi_lon - lo_lon) zoom) ;;
      let min_lat := center_lat - range_lat / 2 in
      let max_lat := center_lat + range_lat / 2 in
      let min_lon := center_lon - range_lon / 2 in
      let max_lon := center_lon + range_lon / 2 in
      show {| plot_xs := rotated_longitudes; plot_ys := rotated_latitudes;
              xlim := (min_lon, max_lon); ylim := (min_lat, max_lat);
              title_zoom := zoom; title_rotation := rotation |}
  end.

(** ** [update_plot] (main.py, lines 126-145) *)

(** The [nonlocal filtered_coordinates]: it starts as an alias of [data]
    (line 124) and is then the last filter result. *)
Inductive shell_state : Type :=
| Unfiltered
| Filtered (filtered_coordinates : list coordinate).

(** [plot_path] on the variable. On the alias of [data] the rows are
    triples: an empty list prints as usual, and on any other the unpacking
    of line 92 into two names raises [ValueError]. *)
Definition plot_state (data : list sample) (st : shell_state)
    (zoom rotation : R) : io unit :=
  match st with
  | Filtered cs => plot_path cs zoom rotation
  | Unfiltered =>
      match data with
      | [] => print "No coordinates to plot."
      | _ :: _ => lift (Raise ValueError)
      end
  end.

(** One press of the button. The [try] of lines 139-142 guards the call of
    the filter, which returns normally on every input; its handler catches
    [ValueError] only, and line 145 runs after it in both cases. *)
Definition update_plot (data : list sample) (st : shell_state)
    (zoom_value rotation_value : R) (start_time end_time : string)
    : shell_state * io unit :=
  let attempt : result (list coordinate) :=
    Ok (filter_coordinates_by_time data start_time end_time) in
  match attempt with
  | Ok cs =>
      (Filtered cs, plot_path cs zoom_value rotation_value)
  | Raise ValueError =>
      (st, print "Invalid time format. Use HH:MM." ;;;
           plot_state data st zoom_value rotation_value)
  | Raise e => (st, lift (Raise e))
  end.

(** The message of the handler of line 142 was printed. *)
Definition reports_invalid_time (tr : list event) : Prop :=
  In (Printed "Invalid time format. Use HH:MM.") tr.

(** A figure was handed to the renderer. *)
Definition renders (tr : list event) : Prop :=
  exists fig, In (Shown fig) tr.

(** ** [parse_gpx] (main.py, lines 8-21) *)

(** The part of gpxpy's object model that [parse_gpx] reads. *)
Record GPXTrackPoint : Type := mkPoint {
  latitude : R;
  longitude : R;
  time : option datetime
}.

Record GPXTrackSegment : Type := mkSegment { points : list GPXTrackPoint }.
Record GPXTrack : Type := mkTrack { segments : list GPXTrackSegment }.
Record GPX : Type := mkGPX { tracks : list GPXTrack }.

(** The three nested loops of lines 16-20 share the accumulator [data]. *)
Fixpoint points_loop (pts : list GPXTrackPoint) (data : list sample)
    : list sample :=
  match pts with
  | [] => data
  | point :: rest =>
      match time point with
      | Some t => points_loop rest (data ++ [(latitude point, longitude point, t)])
      | None => points_loop rest data
      end
  end.

Fixpoint segments_loop (segs : list GPXTrackSegment) (data : list sample)
    : list sample :=
  match segs with
  | [] => data
  | segment :: rest => segments_loop rest (points_loop (points segment) data)
  end.

Fixpoint tracks_loop (trks : list GPXTrack) (data : list sample)
    : list sample :=
  match trks with
  | [] => data
  | track :: rest => tracks_loop rest (segments_loop (segments track) data)
  end.

(** The flattening as the design document words it. *)
Definition timed_point (point : GPXTrackPoint) : list sample :=
  match time point with
  | Some t => [(latitude point, longitude point, t)]
  | None => []
  end.

Definition flatten_spec (gpx : GPX) : list sample :=
  flat_map (fun track =>
    flat_map (fun segment => flat_map timed_point (points segment))
             (segments track))
    (tracks gpx).

Section Loader.

(** The file system: the text of the file at a path, if there is one. *)
Variable file_system : string -> option string.

(** [gpxpy.parse]: the parsed document, or the exception it raises on
    text that is not a well-formed track file. *)
Variable gpxpy_parse : string -> result GPX.

(** [open(file_path, 'r')] and the read. *)
Definition open_read (file_path : string) : result string :=
  match file_system file_path with
  | Some text => Ok text
  | None => Raise FileNotFoundError
  end.

Definition parse_gpx (file_path : string) : result (list sample) :=
  match open_read file_path with
  | Raise e => Raise e
  | Ok text =>
      match gpxpy_parse text with
      | Raise e => Raise e
      | Ok gpx => Ok (tracks_loop (tracks gpx) [])
      end
  end.

End Loader.


(** ** A small document for the loader *)

Definition demo_files (file_path : string) : option string :=
  if String.eqb file_path "run.gpx" then Some "<gpx>...</gpx>"%string
  else if String.eqb file_path "notes.txt" then Some "not a track"%string
  else None.

Definition demo_document : GPX :=
  mkGPX [ mkTrack [ mkSegment [ mkPoint 1 2 (Some (mkDatetime 2024 5 1 8 0 0));
                                mkPoint 3 4 None ];
                    mkSegment [] ];
          mkTrack [ mkSegment [ mkPoint 5 6 (Some (mkDatetime 2024 5 1 12 0 0)) ] ] ].

Definition demo_parse (text : string) : result GPX :=
  if String.eqb text "<gpx>...</gpx>" then Ok demo_document
  else Raise GPXException.

(** ** Notions used by the further properties *)

(** Minutes since midnight of a timestamp. *)
Definition minute_of_day (t : datetime) : nat := 60 * hour t + minute t.

(** The window read as times of the day: from [ts] to [te], both included,
    to the minute. *)
Definition chronological_window (ts te : datetime) (s : sample) : bool :=
  (minute_of_day ts <=? minute_of_day (snd s))%nat
  && (minute_of_day (snd s) <=? minute_of_day te)%nat.

(** Squared distance of two coordinates in the plane of the plot. *)
Definition dist2 (p q : coordinate) : R :=
  (fst p - fst q) * (fst p - fst q) + (snd p - snd q) * (snd p - snd q).

(** Every point of a document, in file order, timed or not. *)
Definition all_points (gpx : GPX) : list GPXTrackPoint :=
  flat_map (fun track => flat_map points (segments track)) (tracks gpx).

Definition has_time (point : GPXTrackPoint) : bool :=
  match time point with
  | Some _ => true
  | None => false
  end.

(** The range of the zoom slider of [create_gui_with_time_filter]
    (main.py, line 164): from 1 to 10. *)
Definition zoom_slider_range (zoom : R) : Prop := 1 <= zoom <= 10.

(** Exactly one event was emitted. *)
Definition one_event (tr : list event) : Prop :=
  tr = [Printed "No coordinates to plot."] \/ exists fig, tr = [Shown fig].

Definition comparison_eqb (c d : comparison) : bool :=
  match c, d with
  | Eq, Eq | Lt, Lt | Gt, Gt => true
  | _, _ => false
  end.

(** The three samples of the design document's scenario. *)
Definition demo_samples : list sample :=
  [(0, 0, mkDatetime 2024 5 1 8 0 0); (1, 1, mkDatetime 2024 5 1 12 0 0);
   (2, 2, mkDatetime 2024 5 1 18 0 0)].

(** [m] is a greatest, respectively least, element of [xs]. *)
Definition is_max (m : R) (xs : list R) : Prop :=
  In m xs /\ forall x, In x xs -> x <= m.

Definition is_min (m : R) (xs : list R) : Prop :=
  In m xs /\ forall x, In x xs -> m <= x.

(** * Properties *)

(** ** Formatting *)

Example strftime_pads : strftime_HM (mkDatetime 2024 5 1 8 5 59) = "08:05"%string.
Proof. reflexivity. Qed.

(** The scenario of the design document: samples at 08:00, 12:00 and 18:00,
    window 08:00 to 12:00. *)
Example filter_scenario :
  filter_coordinates_by_time
    [(0, 0, mkDatetime 2024 5 1 8 0 0); (1, 1, mkDatetime 2024 5 1 12 0 0);
     (2, 2, mkDatetime 2024 5 1 18 0 0)] "08:00" "12:00"
  = [(0, 0); (1, 1)].
Proof. reflexivity. Qed.

(** ** Facts on the string order *)

Lemma ascii_compare_trans_lt (a b c : ascii) :
  Ascii.compare a b = Lt -> Ascii.compare b c = Lt -> Ascii.compare a c = Lt.
Proof.
  unfold Ascii.compare. rewrite !N.compare_lt_iff. apply N.lt_trans.
Qed.

Lemma string_compare_refl (s : string) : String.compare s s = Eq.
Proof.
  induction s as [|a s IH]; simpl; [reflexivity|].
  unfold Ascii.compare. now rewrite N.compare_refl.
Qed.

Lemma string_compare_lt_trans (s1 : string) :
  forall s2 s3, String.compare s1 s2 = Lt -> String.compare s2 s3 = Lt ->
                String.compare s1 s3 = Lt.
Proof.
  induction s1 as [|a s1 IH]; intros [|b s2] [|c s3]; simpl; try congruence.
  destruct (Ascii.compare a b) eqn:Eab; try discriminate;
  destruct (Ascii.compare b c) eqn:Ebc; try discriminate; intros H12 H23.
  - apply Ascii.compare_eq_iff in Eab, Ebc. subst.
    unfold Ascii.compare. rewrite N.compare_refl. eauto.
  - apply Ascii.compare_eq_iff in Eab. subst. now rewrite Ebc.
  - apply Ascii.compare_eq_iff in Ebc. subst. now rewrite Eab.
  - now rewrite (ascii_compare_trans_lt _ _ _ Eab Ebc).
Qed.

Lemma str_le_refl (s : string) : str_le s s = true.
Proof. unfold str_le, String.leb. now rewrite string_compare_refl. Qed.

Lemma str_le_trans (s1 s2 s3 : string) :
  str_le s1 s2 = true -> str_le s2 s3 = true -> str_le s1 s3 = true.
Proof.
  unfold str_le, String.leb.
  destruct (String.compare s1 s2) eqn:E12; try discriminate;
  destruct (String.compare s2 s3) eqn:E23; try discriminate; intros _ _.
  - apply String.compare_eq_iff in E12, E23. subst. now rewrite string_compare_refl.
  - apply String.compare_eq_iff in E12. subst. now rewrite E23.
  - apply String.compare_eq_iff in E23. subst. now rewrite E12.
  - now rewrite (string_compare_lt_trans _ _ _ E12 E23).
Qed.

Lemma str_gt_not_le (a b : string) : str_gt a b = true -> str_le a b = false.
Proof.
  unfold str_gt, str_le, String.ltb, String.leb.
  rewrite (String.compare_antisym b a).
  destruct (String.compare a b); simpl; congruence.
Qed.

(** ** The time filter *)

Lemma filter_loop_spec (data : list sample) (start_time end_time : string) :
  forall filtered,
    filter_loop data start_time end_time filtered
    = filtered ++ time_filter_spec data start_time end_time.
Proof.
  unfold time_filter_spec.
  induction data as [|[[lat lon] t] rest IH]; intros filtered; simpl.
  - now rewrite app_nil_r.
  - unfold in_window at 1. simpl.
    destruct (str_le start_time (strftime_HM t) && str_le (strftime_HM t) end_time);
      rewrite IH; simpl; [now rewrite <- app_assoc | reflexivity].
Qed.

Lemma in_window_ordered (start_time end_time : string) (s : sample) :
  in_window start_time end_time s = true -> str_le start_time end_time = true.
Proof.
  unfold in_window. intros H. apply andb_prop in H as [H1 H2].
  exact (str_le_trans _ _ _ H1 H2).
Qed.

Lemma filter_none {A : Type} (f : A -> bool) (l : list A) :
  (forall x, In x l -> f x = false) -> filter f l = [].
Proof.
  induction l as [|a l IH]; intros H; simpl; [reflexivity|].
  rewrite (H a (or_introl eq_refl)). apply IH. intros x Hx. apply H. now right.
Qed.

(** C3. The time filter returns, in order, the coordinates of exactly the
    samples whose time of day, formatted as zero-padded ["HH:MM"], lies
    between [start_time] and [end_time] in the lexicographic order (a sample
    is retained if and only if it does); for an ordered window a sample
    stamped exactly at [start_time] or exactly at [end_time] is retained;
    and whenever [start_time > end_time] the result is empty. *)
Theorem time_filter_inclusive_window :
  forall (data : list sample) (start_time end_time : string),
    filter_coordinates_by_time data start_time end_time
      = time_filter_spec data start_time end_time
    /\ (forall c, In c (filter_coordinates_by_time data start_time end_time) <->
          exists s, In s data /\ drop_time s = c
                    /\ str_le start_time (strftime_HM (snd s)) = true
                    /\ str_le (strftime_HM (snd s)) end_time = true)
    /\ (forall s, In s data -> str_le start_time end_time = true ->
          strftime_HM (snd s) = start_time \/ strftime_HM (snd s) = end_time ->
          In (drop_time s) (filter_coordinates_by_time data start_time end_time))
    /\ (str_gt start_time end_time = true ->
          filter_coordinates_by_time data start_time end_time = []).
Proof.
  intros data start_time end_time.
  assert (Heq : filter_coordinates_by_time data start_time end_time
                = time_filter_spec data start_time end_time)
    by (unfold filter_coordinates_by_time; now rewrite filter_loop_spec).
  rewrite Heq. unfold time_filter_spec. repeat split.
  - intros Hin. apply in_map_iff in Hin as [s [Hs Hin]].
    apply filter_In in Hin as [Hin Hw]. apply andb_prop in Hw as [H1 H2].
    exists s. auto.
  - intros [s [Hin [Hs [H1 H2]]]]. apply in_map_iff. exists s. split; [exact Hs|].
    apply filter_In. split; [exact Hin|]. unfold in_window. now rewrite H1, H2.
  - intros s Hin Hord Hedge. apply in_map. apply filter_In. split; [exact Hin|].
    unfold in_window.
    destruct Hedge as [-> | ->]; rewrite str_le_refl; [now rewrite Hord | now rewrite andb_true_r].
  - intros Hgt. apply str_gt_not_le in Hgt.
    rewrite filter_none; [reflexivity|].
    intros s _. destruct (in_window start_time end_time s) eqn:Hw; [|reflexivity].
    apply in_window_ordered in Hw. congruence.
Qed.

(** ** The rotation *)

Lemma rotate_loop_spec (coordinates : list coordinate)
    (angle center_lat center_lon : R) :
  forall rotated,
    rotate_loop coordinates (cos (radians angle)) (sin (radians angle))
                center_lat center_lon rotated
    = rotated ++ map (rotate_about (center_lat, center_lon) (radians angle)) coordinates.
Proof.
  induction coordinates as [|[lat lon] rest IH]; intros rotated; simpl.
  - now rewrite app_nil_r.
  - rewrite IH, <- app_assoc. reflexivity.
Qed.

Lemma rotate_coordinates_map (coordinates : list coordinate) (angle : R)
    (center : coordinate) :
  rotate_coordinates coordinates angle center
  = map (rotate_about center (radians angle)) coordinates.
Proof.
  destruct center as [center_lat center_lon]. unfold rotate_coordinates.
  now rewrite rotate_loop_spec.
Qed.

(** C10. [rotate_coordinates] is a pointwise map: it is defined on every
    list, its result has the length of its input, and the i-th output is
    the rotation of the i-th input about the centre by the angle, whatever
    the other elements are. *)
Theorem rotate_coordinates_pointwise :
  forall (coordinates : list coordinate) (angle : R) (center : coordinate),
    rotate_coordinates coordinates angle center
      = map (rotate_about center (radians angle)) coordinates
    /\ List.length (rotate_coordinates coordinates angle center) = List.length coordinates
    /\ (forall i p, nth_error coordinates i = Some p ->
          nth_error (rotate_coordinates coordinates angle center) i
          = Some (rotate_about center (radians angle) p))
    /\ (forall i, nth_error coordinates i = None ->
          nth_error (rotate_coordinates coordinates angle center) i = None).
Proof.
  intros coordinates angle center. rewrite rotate_coordinates_map.
  split; [reflexivity|]. split; [apply length_map|]. split.
  - intros i p Hi. rewrite nth_error_map, Hi. reflexivity.
  - intros i Hi. rewrite nth_error_map, Hi. reflexivity.
Qed.

(** ** The loader *)

Lemma points_loop_spec (pts : list GPXTrackPoint) :
  forall data, points_loop pts data = data ++ flat_map timed_point pts.
Proof.
  induction pts as [|point rest IH]; intros data; simpl.
  - now rewrite app_nil_r.
  - unfold timed_point at 1. destruct (time point) as [t|]; rewrite IH; simpl.
    + now rewrite <- app_assoc.
    + reflexivity.
Qed.

Lemma segments_loop_spec (segs : list GPXTrackSegment) :
  forall data,
    segments_loop segs data
    = data ++ flat_map (fun segment => flat_map timed_point (points segment)) segs.
Proof.
  induction segs as [|segment rest IH]; intros data; simpl.
  - now rewrite app_nil_r.
  - now rewrite IH, points_loop_spec, <- app_assoc.
Qed.

Lemma tracks_loop_spec (trks : list GPXTrack) :
  forall data,
    tracks_loop trks data = data ++ flatten_spec (mkGPX trks).
Proof.
  unfold flatten_spec. simpl.
  induction trks as [|track rest IH]; intros data; simpl.
  - now rewrite app_nil_r.
  - now rewrite IH, segments_loop_spec, <- app_assoc.
Qed.

(** C6. On a path whose file exists and parses, the loader returns the
    points of the document in file order (tracks outermost, then segments,
    then points), each as (latitude, longitude, timestamp), and a point
    without a timestamp contributes nothing and raises nothing. *)
Theorem parse_gpx_flattens_in_file_order :
  forall (file_system : string -> option string)
         (gpxpy_parse : string -> result GPX)
         (file_path text : string) (gpx : GPX),
    file_system file_path = Some text ->
    gpxpy_parse text = Ok gpx ->
    parse_gpx file_system gpxpy_parse file_path = Ok (flatten_spec gpx)
    /\ (forall point, time point = None -> timed_point point = [])
    /\ (forall point t, time point = Some t ->
          timed_point point = [(latitude point, longitude point, t)]).
Proof.
  intros file_system gpxpy_parse file_path text [trks] Hfile Hparse.
  split; [|split].
  - unfold parse_gpx, open_read. rewrite Hfile, Hparse. simpl.
    now rewrite tracks_loop_spec.
  - intros point Hnone. unfold timed_point. now rewrite Hnone.
  - intros point t Hsome. unfold timed_point. now rewrite Hsome.
Qed.


(** ** Extrema, centre and the rendered figure *)

(** Decide the comparisons of a fold over concrete numbers, innermost first. *)
Ltac no_cmp t :=
  lazymatch t with
  | context [Rgt_dec] => fail
  | context [Rlt_dec] => fail
  | _ => idtac
  end.

Ltac cmp_cases :=
  repeat match goal with
  | |- context [Rgt_dec ?a ?b] =>
      no_cmp a; no_cmp b; destruct (Rgt_dec a b); try (exfalso; lra)
  | |- context [Rlt_dec ?a ?b] =>
      no_cmp a; no_cmp b; destruct (Rlt_dec a b); try (exfalso; lra)
  | |- context [Req_dec_T ?a ?b] =>
      destruct (Req_dec_T a b); try (exfalso; lra)
  end.

Lemma fold_max_spec (rest : list R) :
  forall x,
    is_max (fold_left (fun best item => if Rgt_dec item best then item else best) rest x)
           (x :: rest).
Proof.
  induction rest as [|a rest IH]; intros x; simpl.
  - split; [now left | intros y [<- | []]; lra].
  - destruct (IH (if Rgt_dec a x then a else x)) as [Hin Hub]. split.
    + destruct Hin as [Hin | Hin]; [|now right; right].
      rewrite <- Hin. destruct (Rgt_dec a x); [right; now left | now left].
    + intros y Hy.
      assert (Hstep : x <= (if Rgt_dec a x then a else x)
                      /\ a <= (if Rgt_dec a x then a else x))
        by (destruct (Rgt_dec a x); lra).
      destruct Hstep as [Hx Ha].
      pose proof (Hub _ (or_introl eq_refl)) as Hbest.
      destruct Hy as [<- | [<- | Hy]]; [lra | lra | apply Hub; now right].
Qed.

Lemma fold_min_spec (rest : list R) :
  forall x,
    is_min (fold_left (fun best item => if Rlt_dec item best then item else best) rest x)
           (x :: rest).
Proof.
  induction rest as [|a rest IH]; intros x; simpl.
  - split; [now left | intros y [<- | []]; lra].
  - destruct (IH (if Rlt_dec a x then a else x)) as [Hin Hlb]. split.
    + destruct Hin as [Hin | Hin]; [|now right; right].
      rewrite <- Hin. destruct (Rlt_dec a x); [right; now left | now left].
    + intros y Hy.
      assert (Hstep : (if Rlt_dec a x then a else x) <= x
                      /\ (if Rlt_dec a x then a else x) <= a)
        by (destruct (Rlt_dec a x); lra).
      destruct Hstep as [Hx Ha].
      pose proof (Hlb _ (or_introl eq_refl)) as Hbest.
      destruct Hy as [<- | [<- | Hy]]; [lra | lra | apply Hlb; now right].
Qed.

Lemma py_max_spec (xs : list R) :
  xs <> [] -> exists m, py_max xs = Ok m /\ is_max m xs.
Proof.
  destruct xs as [|x rest]; [congruence|]. intros _.
  eexists. split; [reflexivity | apply fold_max_spec].
Qed.

Lemma py_min_spec (xs : list R) :
  xs <> [] -> exists m, py_min xs = Ok m /\ is_min m xs.
Proof.
  destruct xs as [|x rest]; [congruence|]. intros _.
  eexists. split; [reflexivity | apply fold_min_spec].
Qed.

Lemma is_max_unique (m m' : R) (xs : list R) :
  is_max m xs -> is_max m' xs -> m = m'.
Proof. intros [Hi Hu] [Hi' Hu']. apply Rle_antisym; auto. Qed.

Lemma is_min_unique (m m' : R) (xs : list R) :
  is_min m xs -> is_min m' xs -> m = m'.
Proof. intros [Hi Hl] [Hi' Hl']. apply Rle_antisym; auto. Qed.

Lemma map_nonempty {A B : Type} (f : A -> B) (l : list A) :
  l <> [] -> map f l <> [].
Proof. destruct l; simpl; congruence. Qed.

Lemma path_center_spec (coordinates : list coordinate) :
  coordinates <> [] ->
  exists max_lat min_lat max_lon min_lon,
    is_max max_lat (map fst coordinates) /\ is_min min_lat (map fst coordinates)
    /\ is_max max_lon (map snd coordinates) /\ is_min min_lon (map snd coordinates)
    /\ path_center coordinates
       = Ok ((max_lat + min_lat) / 2, (max_lon + min_lon) / 2).
Proof.
  intros Hne.
  destruct (py_max_spec (map fst coordinates) (map_nonempty _ _ Hne)) as [M1 [E1 H1]].
  destruct (py_min_spec (map fst coordinates) (map_nonempty _ _ Hne)) as [m1 [E2 H2]].
  destruct (py_max_spec (map snd coordinates) (map_nonempty _ _ Hne)) as [M2 [E3 H3]].
  destruct (py_min_spec (map snd coordinates) (map_nonempty _ _ Hne)) as [m2 [E4 H4]].
  exists M1, m1, M2, m2. unfold path_center. rewrite E1, E2, E3, E4. auto.
Qed.

(** What [plot_path] does on a non-empty path with a non-zero zoom: one
    figure, and nothing else. *)
Lemma plot_path_shown (coordinates : list coordinate) (zoom rotation : R) :
  coordinates <> [] -> zoom <> 0 ->
  exists center hi_lat lo_lat hi_lon lo_lon,
    let rotated := rotate_coordinates coordinates rotation center in
    path_center coordinates = Ok center
    /\ is_max hi_lat (map fst rotated) /\ is_min lo_lat (map fst rotated)
    /\ is_max hi_lon (map snd rotated) /\ is_min lo_lon (map snd rotated)
    /\ plot_path coordinates zoom rotation
       = ([Shown {| plot_xs := map snd rotated; plot_ys := map fst rotated;
                    xlim := (snd center - (hi_lon - lo_lon) / zoom / 2,
                             snd center + (hi_lon - lo_lon) / zoom / 2);
                    ylim := (fst center - (hi_lat - lo_lat) / zoom / 2,
                             fst center + (hi_lat - lo_lat) / zoom / 2);
                    title_zoom := zoom; title_rotation := rotation |}], Ok tt).
Proof.
  intros Hne Hzoom.
  destruct (path_center_spec coordinates Hne) as (M1 & m1 & M2 & m2 & _ & _ & _ & _ & Hc).
  set (center := ((M1 + m1) / 2, (M2 + m2) / 2)) in *.
  assert (Hrot : rotate_coordinates coordinates rotation center <> []).
  { rewrite rotate_coordinates_map. now apply map_nonempty. }
  destruct (py_max_spec _ (map_nonempty fst _ Hrot)) as [hi_lat [E1 H1]].
  destruct (py_min_spec _ (map_nonempty fst _ Hrot)) as [lo_lat [E2 H2]].
  destruct (py_max_spec _ (map_nonempty snd _ Hrot)) as [hi_lon [E3 H3]].
  destruct (py_min_spec _ (map_nonempty snd _ Hrot)) as [lo_lon [E4 H4]].
  exists center, hi_lat, lo_lat, hi_lon, lo_lon. cbv zeta.
  repeat (split; [assumption|]).
  destruct coordinates as [|p rest]; [congruence|].
  unfold plot_path. rewrite Hc. unfold lift, bind, show. fold center.
  cbv beta iota zeta. unfold center at 1. cbv beta iota. fold center.
  rewrite E1, E2, E3, E4. unfold py_div.
  destruct (Req_dec_T zoom 0); [contradiction|]. reflexivity.
Qed.

Lemma radians_opp (angle : R) : radians (- angle) = - radians angle.
Proof. unfold radians. ring. Qed.

Lemma rotate_about_inverse (center p : coordinate) (theta : R) :
  rotate_about center (- theta) (rotate_about center theta p) = p.
Proof.
  destruct center as [clat clon], p as [lat lon]. unfold rotate_about. simpl.
  rewrite cos_neg, sin_neg.
  pose proof (sin2_cos2 theta) as Hone. unfold Rsqr in Hone.
  set (c := cos theta) in *. set (s := sin theta) in *.
  f_equal.
  - replace (((lat - clat) * c - (lon - clon) * s + clat - clat) * c
            - ((lat - clat) * s + (lon - clon) * c + clon - clon) * - s + clat)
      with ((lat - clat) * (s * s + c * c) + clat) by ring.
    rewrite Hone. ring.
  - replace (((lat - clat) * c - (lon - clon) * s + clat - clat) * - s
            + ((lat - clat) * s + (lon - clon) * c + clon - clon) * c + clon)
      with ((lon - clon) * (s * s + c * c) + clon) by ring.
    rewrite Hone. ring.
Qed.

(** C8. In real arithmetic, rotating a coordinate list by an angle and then
    rotating the result by the opposite angle about the same centre gives
    back the list. *)
Theorem rotate_coordinates_round_trip :
  forall (coordinates : list coordinate) (center : coordinate) (theta : R),
    rotate_coordinates (rotate_coordinates coordinates theta center) (- theta) center
    = coordinates.
Proof.
  intros coordinates center theta.
  rewrite !rotate_coordinates_map, radians_opp, map_map.
  induction coordinates as [|p rest IH]; simpl; [reflexivity|].
  now rewrite rotate_about_inverse, IH.
Qed.

Lemma rotate_about_center (center : coordinate) (theta : R) :
  rotate_about center theta center = center.
Proof.
  destruct center as [clat clon]. unfold rotate_about. simpl. f_equal; ring.
Qed.

Lemma path_center_single (lat lon : R) : path_center [(lat, lon)] = Ok (lat, lon).
Proof. unfold path_center. simpl. do 2 f_equal; field. Qed.

Lemma rotate_coordinates_single (lat lon theta : R) :
  rotate_coordinates [(lat, lon)] theta (lat, lon) = [(lat, lon)].
Proof. rewrite rotate_coordinates_map. cbn [map]. now rewrite rotate_about_center. Qed.

Lemma plot_path_single (lat lon zoom theta : R) :
  zoom <> 0 ->
  plot_path [(lat, lon)] zoom theta
  = ([Shown {| plot_xs := [lon]; plot_ys := [lat];
               xlim := (lon, lon); ylim := (lat, lat);
               title_zoom := zoom; title_rotation := theta |}], Ok tt).
Proof.
  intros Hzoom.
  unfold plot_path. rewrite path_center_single. unfold lift, bind, show.
  cbv beta iota zeta. rewrite rotate_coordinates_single.
  cbn [map fst snd]. unfold py_max, py_min, py_div. cbn [fold_left].
  destruct (Req_dec_T zoom 0); [contradiction|]. cbn [app].
  replace (lat - (lat - lat) / zoom / 2) with lat by (field; assumption).
  replace (lat + (lat - lat) / zoom / 2) with lat by (field; assumption).
  replace (lon - (lon - lon) / zoom / 2) with lon by (field; assumption).
  replace (lon + (lon - lon) / zoom / 2) with lon by (field; assumption).
  reflexivity.
Qed.

(** C9. A path of one point is its own centre (least and greatest coincide
    on both axes), and for every angle the rotation of the view about that
    centre leaves the point where it is; at every non-zero zoom the figure
    drawn is that one point with both axis windows collapsed on it. *)
Theorem single_point_is_fixed :
  forall (lat lon theta : R),
    path_center [(lat, lon)] = Ok (lat, lon)
    /\ rotate_coordinates [(lat, lon)] theta (lat, lon) = [(lat, lon)]
    /\ (forall zoom, zoom <> 0 ->
          plot_path [(lat, lon)] zoom theta
          = ([Shown {| plot_xs := [lon]; plot_ys := [lat];
                       xlim := (lon, lon); ylim := (lat, lat);
                       title_zoom := zoom; title_rotation := theta |}], Ok tt)).
Proof.
  intros lat lon theta.
  split; [apply path_center_single|].
  split; [apply rotate_coordinates_single|].
  intros zoom Hzoom. now apply plot_path_single.
Qed.

(** C4. On a non-empty path the centre is the midpoint of the greatest and
    least latitude and of the greatest and least longitude of that path,
    and the rotation of the view sends each point of the path to the point
    moved by minus the centre, turned by the angle in radians
    (lat' = dlat cos - dlon sin, lon' = dlat sin + dlon cos) and moved back
    by the centre; at every non-zero zoom these are the points the figure
    plots. *)
Theorem center_is_box_midpoint_and_rotation_is_about_it :
  forall (coordinates : list coordinate) (rotation : R),
    coordinates <> [] ->
    exists max_lat min_lat max_lon min_lon,
      let center := ((max_lat + min_lat) / 2, (max_lon + min_lon) / 2) in
      let theta := rotation * (PI / 180) in
      let turned :=
        map (fun p =>
               let dlat := fst p - fst center in
               let dlon := snd p - snd center in
               (dlat * cos theta - dlon * sin theta + fst center,
                dlat * sin theta + dlon * cos theta + snd center))
            coordinates in
      is_max max_lat (map fst coordinates) /\ is_min min_lat (map fst coordinates)
      /\ is_max max_lon (map snd coordinates) /\ is_min min_lon (map snd coordinates)
      /\ path_center coordinates = Ok center
      /\ rotate_coordinates coordinates rotation center = turned
      /\ (forall zoom, zoom <> 0 ->
            exists fig,
              plot_path coordinates zoom rotation = ([Shown fig], Ok tt)
              /\ combine (plot_ys fig) (plot_xs fig) = turned).
Proof.
  intros coordinates rotation Hne.
  destruct (path_center_spec coordinates Hne)
    as (max_lat & min_lat & max_lon & min_lon & H1 & H2 & H3 & H4 & Hc).
  exists max_lat, min_lat, max_lon, min_lon. cbv zeta.
  do 5 (split; [assumption|]).
  split; [apply rotate_coordinates_map|].
  intros zoom Hzoom.
  destruct (plot_path_shown coordinates zoom rotation Hne Hzoom)
    as (center & hi_lat & lo_lat & hi_lon & lo_lon & Hc' & _ & _ & _ & _ & Hplot).
  rewrite Hc in Hc'. injection Hc' as Hc'. subst center.
  eexists. split; [exact Hplot|].
  cbn [plot_ys plot_xs]. rewrite rotate_coordinates_map.
  clear. induction coordinates as [|[lat lon] rest IH]; [reflexivity|].
  cbn [map combine]. rewrite IH. reflexivity.
Qed.

Lemma center_is_box_midpoint_and_rotation_is_about_it_witness :
  [(0, 0); (2, 2)] <> []
  /\ exists max_lat min_lat max_lon min_lon,
       is_max max_lat [0; 2] /\ is_min min_lat [0; 2]
       /\ is_max max_lon [0; 2] /\ is_min min_lon [0; 2]
       /\ path_center [(0, 0); (2, 2)]
          = Ok ((max_lat + min_lat) / 2, (max_lon + min_lon) / 2)
       /\ List.length (rotate_coordinates [(0, 0); (2, 2)] 90
                         ((max_lat + min_lat) / 2, (max_lon + min_lon) / 2)) = 2%nat.
Proof.
  assert (Hne : [(0, 0); (2, 2)] <> ([] : list coordinate)) by discriminate.
  split; [exact Hne|].
  destruct (center_is_box_midpoint_and_rotation_is_about_it [(0, 0); (2, 2)] 90 Hne)
    as (max_lat & min_lat & max_lon & min_lon & H1 & H2 & H3 & H4 & Hc & Hrot & _).
  exists max_lat, min_lat, max_lon, min_lon.
  do 5 (split; [assumption|]). rewrite Hrot. reflexivity.
Defined.

(** The scenario of the design document: the two-point path turned by 180
    degrees about its centre (1/2, 1/2) swaps its points. *)
Example half_turn_swaps :
  path_center [(0, 0); (1, 1)] = Ok (1 / 2, 1 / 2)
  /\ rotate_coordinates [(0, 0); (1, 1)] 180 (1 / 2, 1 / 2) = [(1, 1); (0, 0)].
Proof.
  split.
  - unfold path_center, py_max, py_min. cbn [map fst snd fold_left]. cmp_cases.
    do 2 f_equal; field.
  - rewrite rotate_coordinates_map.
    replace (radians 180) with PI by (unfold radians; field).
    unfold rotate_about. cbn [map fst snd]. rewrite cos_PI, sin_PI.
    repeat f_equal; field.
Qed.

(** ** Bounds at zoom 1 *)

Lemma radians_45 : radians 45 = PI / 4.
Proof. unfold radians. field. Qed.

Lemma sin_45 : sin (radians 45) = cos (radians 45).
Proof. rewrite radians_45, sin_PI4, cos_PI4. reflexivity. Qed.

Lemma cos_45_pos : 0 < cos (radians 45).
Proof.
  rewrite radians_45, cos_PI4. apply Rdiv_lt_0_compat; [lra|].
  apply sqrt_lt_R0. lra.
Qed.

(** C2, as stated, fails. The path (0,0), (2,0), (0,2) has centre (1,1);
    turned by 45 degrees its longitudes are 1 - 2c, 1 and 1 with
    c = cos 45 > 0, so the greatest rotated longitude is 1, while the upper
    longitude bound at zoom 1 is 1 + c. *)
Lemma zoom_one_bounds_miss_rotated_extrema :
  exists fig,
    plot_path [(0, 0); (2, 0); (0, 2)] 1 45 = ([Shown fig], Ok tt)
    /\ is_max 1 (plot_xs fig)
    /\ snd (xlim fig) = 1 + cos (radians 45)
    /\ snd (xlim fig) <> 1.
Proof.
  pose proof sin_45 as Hs. pose proof cos_45_pos as Hc.
  unfold plot_path, path_center, py_max, py_min.
  cbn [map fst snd fold_left]. cmp_cases.
  unfold lift, bind, show. cbv beta iota zeta.
  rewrite rotate_coordinates_map. unfold rotate_about.
  cbn [map fst snd]. rewrite Hs.
  set (c := cos (radians 45)) in *.
  unfold py_max, py_min, py_div. cbn [fold_left]. cmp_cases.
  eexists. split; [reflexivity|]. cbn [plot_xs xlim snd]. split; [|split].
  - split.
    + right; left. lra.
    + intros x [<- | [<- | [<- | []]]]; lra.
  - lra.
  - lra.
Qed.

Lemma rotate_about_zero (center p : coordinate) :
  rotate_about center (radians 0) p = p.
Proof.
  destruct center as [clat clon], p as [lat lon]. unfold rotate_about, radians.
  cbn [fst snd]. rewrite Rmult_0_l, cos_0, sin_0. f_equal; ring.
Qed.

Lemma rotate_coordinates_zero (coordinates : list coordinate) (center : coordinate) :
  rotate_coordinates coordinates 0 center = coordinates.
Proof.
  rewrite rotate_coordinates_map.
  induction coordinates as [|p rest IH]; cbn [map]; [reflexivity|].
  now rewrite rotate_about_zero, IH.
Qed.

Lemma pair_window (c hi lo : R) :
  (c - (hi - lo) / 2, c + (hi - lo) / 2) = (lo, hi) <-> (hi + lo) / 2 = c.
Proof.
  split.
  - intros H. injection H as H1 H2. lra.
  - intros H. f_equal; lra.
Qed.

(** C2, amended. On a non-empty path at zoom 1, for every angle, the bounds
    are the windows centred on the centre of the unrotated path whose
    widths are the latitude range and the longitude range of the rotated
    path. A window is the pair (least, greatest) of the rotated path exactly
    when the midpoint of that pair is the centre's coordinate; this is so
    for both windows when the angle is 0. *)
Theorem zoom_one_bounds_centered_on_center :
  forall (coordinates : list coordinate) (rotation : R),
    coordinates <> [] ->
    exists center hi_lat lo_lat hi_lon lo_lon fig,
      path_center coordinates = Ok center
      /\ plot_path coordinates 1 rotation = ([Shown fig], Ok tt)
      /\ is_max hi_lat (plot_ys fig) /\ is_min lo_lat (plot_ys fig)
      /\ is_max hi_lon (plot_xs fig) /\ is_min lo_lon (plot_xs fig)
      /\ ylim fig = (fst center - (hi_lat - lo_lat) / 2,
                     fst center + (hi_lat - lo_lat) / 2)
      /\ xlim fig = (snd center - (hi_lon - lo_lon) / 2,
                     snd center + (hi_lon - lo_lon) / 2)
      /\ (ylim fig = (lo_lat, hi_lat) <-> (hi_lat + lo_lat) / 2 = fst center)
      /\ (xlim fig = (lo_lon, hi_lon) <-> (hi_lon + lo_lon) / 2 = snd center)
      /\ (rotation = 0 ->
            ylim fig = (lo_lat, hi_lat) /\ xlim fig = (lo_lon, hi_lon)).
Proof.
  intros coordinates rotation Hne.
  assert (Hone : 1 <> 0) by lra.
  destruct (plot_path_shown coordinates 1 rotation Hne Hone)
    as (center & hi_lat & lo_lat & hi_lon & lo_lon & Hc & H1 & H2 & H3 & H4 & Hplot).
  cbv zeta in H1, H2, H3, H4, Hplot.
  eexists center, hi_lat, lo_lat, hi_lon, lo_lon, _.
  split; [exact Hc|]. split; [exact Hplot|]. cbn [plot_xs plot_ys xlim ylim].
  do 4 (split; [assumption|]).
  assert (Ey : (fst center - (hi_lat - lo_lat) / 1 / 2,
                fst center + (hi_lat - lo_lat) / 1 / 2)
               = (fst center - (hi_lat - lo_lat) / 2,
                  fst center + (hi_lat - lo_lat) / 2)) by (f_equal; field).
  assert (Ex : (snd center - (hi_lon - lo_lon) / 1 / 2,
                snd center + (hi_lon - lo_lon) / 1 / 2)
               = (snd center - (hi_lon - lo_lon) / 2,
                  snd center + (hi_lon - lo_lon) / 2)) by (f_equal; field).
  rewrite Ey, Ex. split; [reflexivity|]. split; [reflexivity|].
  split; [apply pair_window|]. split; [apply pair_window|].
  intros ->. rewrite rotate_coordinates_zero in H1, H2, H3, H4.
  destruct (path_center_spec coordinates Hne)
    as (max_lat & min_lat & max_lon & min_lon & M1 & M2 & M3 & M4 & Hc').
  rewrite Hc in Hc'. injection Hc' as ->.
  rewrite (is_max_unique _ _ _ H1 M1), (is_min_unique _ _ _ H2 M2),
          (is_max_unique _ _ _ H3 M3), (is_min_unique _ _ _ H4 M4).
  cbn [fst snd]. split; apply pair_window; reflexivity.
Qed.

Lemma zoom_one_bounds_centered_on_center_witness :
  [(0, 0); (1, 1)] <> []
  /\ exists center fig,
       path_center [(0, 0); (1, 1)] = Ok center
       /\ plot_path [(0, 0); (1, 1)] 1 0 = ([Shown fig], Ok tt)
       /\ exists hi_lat lo_lat hi_lon lo_lon,
            ylim fig = (lo_lat, hi_lat) /\ xlim fig = (lo_lon, hi_lon)
            /\ is_max hi_lat (plot_ys fig) /\ is_min lo_lat (plot_ys fig)
            /\ is_max hi_lon (plot_xs fig) /\ is_min lo_lon (plot_xs fig).
Proof.
  assert (Hne : [(0, 0); (1, 1)] <> ([] : list coordinate)) by discriminate.
  split; [exact Hne|].
  destruct (zoom_one_bounds_centered_on_center [(0, 0); (1, 1)] 0 Hne)
    as (center & hi_lat & lo_lat & hi_lon & lo_lon & fig
        & Hc & Hp & H1 & H2 & H3 & H4 & _ & _ & _ & _ & Hzero).
  destruct (Hzero eq_refl) as [Hy Hx].
  exists center, fig. split; [exact Hc|]. split; [exact Hp|].
  exists hi_lat, lo_lat, hi_lon, lo_lon. auto 10.
Defined.

(** ** The callback *)

(** The handler of [update_plot] is never entered: the filter is total, so
    every press of the button replaces the variable and plots the new
    filter result. *)
Lemma update_plot_always_filters (data : list sample) (st : shell_state)
    (zoom_value rotation_value : R) (start_time end_time : string) :
  update_plot data st zoom_value rotation_value start_time end_time
  = (Filtered (filter_coordinates_by_time data start_time end_time),
     plot_path (filter_coordinates_by_time data start_time end_time)
               zoom_value rotation_value).
Proof. reflexivity. Qed.

Lemma plot_path_zero_zoom (coordinates : list coordinate) (rotation : R) :
  coordinates <> [] ->
  plot_path coordinates 0 rotation = ([], Raise ZeroDivisionError).
Proof.
  intros Hne.
  destruct (path_center_spec coordinates Hne) as (M1 & m1 & M2 & m2 & _ & _ & _ & _ & Hc).
  set (center := ((M1 + m1) / 2, (M2 + m2) / 2)) in *.
  assert (Hrot : rotate_coordinates coordinates rotation center <> []).
  { rewrite rotate_coordinates_map. now apply map_nonempty. }
  destruct (py_max_spec _ (map_nonempty fst _ Hrot)) as [hi_lat [E1 _]].
  destruct (py_min_spec _ (map_nonempty fst _ Hrot)) as [lo_lat [E2 _]].
  destruct coordinates as [|p rest]; [congruence|].
  unfold plot_path. rewrite Hc. unfold lift, bind, show. fold center.
  cbv beta iota zeta. unfold center at 1. cbv beta iota. fold center.
  rewrite E1, E2. unfold py_div.
  destruct (Req_dec_T 0 0); [reflexivity | congruence].
Qed.

(** The trace of [plot_path]: the empty-path message, one figure, or
    nothing (the division by a zero zoom raised). *)
Lemma plot_path_trace (coordinates : list coordinate) (zoom rotation : R) :
  fst (plot_path coordinates zoom rotation) = [Printed "No coordinates to plot."]
  \/ fst (plot_path coordinates zoom rotation) = []
  \/ exists fig, fst (plot_path coordinates zoom rotation) = [Shown fig].
Proof.
  destruct coordinates as [|p rest]; [now left|]. right.
  assert (Hne : p :: rest <> []) by discriminate.
  destruct (Req_dec_T zoom 0) as [-> | Hzoom].
  - left. now rewrite plot_path_zero_zoom.
  - right.
    destruct (plot_path_shown (p :: rest) zoom rotation Hne Hzoom)
      as (center & hi_lat & lo_lat & hi_lon & lo_lon & _ & _ & _ & _ & _ & Hplot).
    cbv zeta in Hplot. rewrite Hplot. eexists. reflexivity.
Qed.

(** Whatever the two strings are, well formed or not, a press of the button
    never prints the invalid-time message. *)
Lemma update_plot_never_reports_invalid_time (data : list sample)
    (st : shell_state) (zoom_value rotation_value : R)
    (start_time end_time : string) :
  ~ reports_invalid_time
      (fst (snd (update_plot data st zoom_value rotation_value start_time end_time))).
Proof.
  rewrite update_plot_always_filters. cbn [snd]. unfold reports_invalid_time.
  destruct (plot_path_trace (filter_coordinates_by_time data start_time end_time)
                            zoom_value rotation_value) as [-> | [-> | [fig ->]]];
    cbn [In]; intros H; repeat destruct H as [H | H]; try discriminate H; exact H.
Qed.

(** C1, on the code. Both strings below are malformed, yet the press of the
    button raises nothing and prints no invalid-time message: the filter
    compares them as they are, keeps the 09:30 sample, the remembered
    coordinates of the previous view are replaced and a new figure is
    drawn. *)
Theorem malformed_times_are_not_rejected :
  well_formed_hhmm "0" = false /\ well_formed_hhmm "9" = false
  /\ update_plot [(1, 2, mkDatetime 2024 5 1 9 30 0)] (Filtered [(7, 7)])
                 1 0 "0" "9"
     = (Filtered [(1, 2)],
        ([Shown {| plot_xs := [2]; plot_ys := [1];
                   xlim := (2, 2); ylim := (1, 1);
                   title_zoom := 1; title_rotation := 0 |}], Ok tt)).
Proof.
  split; [reflexivity|]. split; [reflexivity|].
  rewrite update_plot_always_filters.
  assert (Hf : filter_coordinates_by_time
                 [(1, 2, mkDatetime 2024 5 1 9 30 0)] "0" "9" = [(1, 2)])
    by reflexivity.
  rewrite Hf. rewrite plot_path_single by lra. reflexivity.
Qed.

(** C5. Whenever the time filter leaves nothing, the press of the button
    prints the empty-path message and does nothing else: no figure is
    handed to the renderer (no centre, rotation or bounds are computed),
    and nothing is raised. *)
Theorem empty_view_is_reported_not_rendered :
  forall (data : list sample) (st : shell_state) (zoom_value rotation_value : R)
         (start_time end_time : string),
    filter_coordinates_by_time data start_time end_time = [] ->
    snd (update_plot data st zoom_value rotation_value start_time end_time)
      = ([Printed "No coordinates to plot."], Ok tt)
    /\ ~ renders
           (fst (snd (update_plot data st zoom_value rotation_value
                                  start_time end_time)))
    /\ plot_path [] zoom_value rotation_value
       = ([Printed "No coordinates to plot."], Ok tt).
Proof.
  intros data st zoom_value rotation_value start_time end_time Hempty.
  rewrite update_plot_always_filters, Hempty. cbn [snd fst plot_path print].
  split; [reflexivity|]. split; [|reflexivity].
  intros [fig [H | []]]. discriminate H.
Qed.

Lemma empty_view_is_reported_not_rendered_witness :
  filter_coordinates_by_time [(1, 2, mkDatetime 2024 5 1 9 30 0)] "18:00" "06:00" = []
  /\ snd (update_plot [(1, 2, mkDatetime 2024 5 1 9 30 0)] (Filtered [(7, 7)])
                      1 0 "18:00" "06:00")
     = ([Printed "No coordinates to plot."], Ok tt).
Proof.
  split; [reflexivity|].
  apply (empty_view_is_reported_not_rendered
           [(1, 2, mkDatetime 2024 5 1 9 30 0)] (Filtered [(7, 7)]) 1 0
           "18:00" "06:00").
  reflexivity.
Defined.

Lemma parse_gpx_flattens_in_file_order_witness :
  (demo_files "run.gpx" = Some "<gpx>...</gpx>"%string
   /\ demo_parse "<gpx>...</gpx>" = Ok demo_document)
  /\ parse_gpx demo_files demo_parse "run.gpx"
     = Ok [(1, 2, mkDatetime 2024 5 1 8 0 0); (5, 6, mkDatetime 2024 5 1 12 0 0)].
Proof.
  split; [split; reflexivity|].
  exact (proj1 (parse_gpx_flattens_in_file_order
                  demo_files demo_parse "run.gpx" "<gpx>...</gpx>" demo_document
                  eq_refl eq_refl)).
Defined.



(** * Further properties *)

(** ** The window as an interval of the day *)

Lemma compare_app_same_length (u : string) :
  forall v r1 r2,
    String.length u = String.length v ->
    String.compare (u ++ r1) (v ++ r2)
    = match String.compare u v with
      | Eq => String.compare r1 r2
      | c => c
      end.
Proof.
  induction u as [|a u IH]; intros [|b v] r1 r2 Hlen; simpl in *; try discriminate.
  - reflexivity.
  - destruct (Ascii.compare a b); try reflexivity. apply IH. congruence.
Qed.

Lemma two_digits_table :
  forallb (fun a =>
    forallb (fun b =>
      comparison_eqb (String.compare (two_digits a) (two_digits b)) (Nat.compare a b))
      (seq 0 60))
    (seq 0 60) = true.
Proof. vm_compute. reflexivity. Qed.

Lemma two_digits_compare (a b : nat) :
  (a < 60)%nat -> (b < 60)%nat ->
  String.compare (two_digits a) (two_digits b) = Nat.compare a b.
Proof.
  intros Ha Hb. pose proof two_digits_table as T.
  rewrite forallb_forall in T.
  assert (Hina : In a (seq 0 60)) by (apply in_seq; lia).
  specialize (T a Hina). rewrite forallb_forall in T.
  assert (Hinb : In b (seq 0 60)) by (apply in_seq; lia).
  specialize (T b Hinb).
  destruct (String.compare (two_digits a) (two_digits b)), (Nat.compare a b);
    simpl in T; congruence.
Qed.

Lemma strftime_HM_compare (t1 t2 : datetime) :
  valid_time t1 -> valid_time t2 ->
  String.compare (strftime_HM t1) (strftime_HM t2)
  = Nat.compare (minute_of_day t1) (minute_of_day t2).
Proof.
  intros [Hh1 Hm1] [Hh2 Hm2]. unfold strftime_HM, minute_of_day.
  rewrite compare_app_same_length by reflexivity.
  rewrite two_digits_compare by lia.
  rewrite (compare_app_same_length ":" ":") by reflexivity.
  rewrite two_digits_compare by lia.
  change (String.compare ":" ":") with Eq. cbv iota.
  destruct (Nat.compare_spec (hour t1) (hour t2)) as [E | L | G].
  - rewrite E. destruct (Nat.compare_spec (minute t1) (minute t2)) as [E' | L' | G'];
      symmetry; [apply Nat.compare_eq_iff | apply Nat.compare_lt_iff | apply Nat.compare_gt_iff]; lia.
  - symmetry. apply Nat.compare_lt_iff. lia.
  - symmetry. apply Nat.compare_gt_iff. lia.
Qed.

Lemma str_le_strftime (t1 t2 : datetime) :
  valid_time t1 -> valid_time t2 ->
  str_le (strftime_HM t1) (strftime_HM t2)
  = (minute_of_day t1 <=? minute_of_day t2)%nat.
Proof.
  intros H1 H2. unfold str_le, String.leb. rewrite strftime_HM_compare by assumption.
  destruct (Nat.compare_spec (minute_of_day t1) (minute_of_day t2)) as [E | L | G];
    symmetry; [apply Nat.leb_le | apply Nat.leb_le | apply Nat.leb_gt]; lia.
Qed.

Lemma filter_ext_Forall {A : Type} (P : A -> Prop) (f g : A -> bool) (l : list A) :
  Forall P l -> (forall x, P x -> f x = g x) -> filter f l = filter g l.
Proof.
  intros Hall Hfg. induction Hall as [|x l Hx _ IH]; simpl; [reflexivity|].
  now rewrite (Hfg x Hx), IH.
Qed.

(** X1. When both bounds are the formatted times of day of two timestamps, the
    filter keeps exactly the samples whose minute of the day lies between
    them, both included: on zero-padded times the order of the strings is
    the order of the clock. *)
Theorem time_filter_is_chronological :
  forall (data : list sample) (ts te : datetime),
    valid_time ts -> valid_time te ->
    Forall (fun s => valid_time (snd s)) data ->
    filter_coordinates_by_time data (strftime_HM ts) (strftime_HM te)
    = map drop_time (filter (chronological_window ts te) data).
Proof.
  intros data ts te Hs He Hall.
  unfold filter_coordinates_by_time. rewrite filter_loop_spec. cbn [app].
  unfold time_filter_spec. f_equal.
  apply (filter_ext_Forall (fun s => valid_time (snd s))); [exact Hall|].
  intros s Hv. unfold in_window, chronological_window.
  now rewrite !str_le_strftime.
Qed.

(** ** Rotations as a group of isometries *)

Lemma radians_plus (a b : R) : radians (a + b) = radians a + radians b.
Proof. unfold radians. ring. Qed.

Lemma rotate_about_compose (center p : coordinate) (a b : R) :
  rotate_about center b (rotate_about center a p) = rotate_about center (a + b) p.
Proof.
  destruct center as [clat clon], p as [lat lon]. unfold rotate_about.
  cbn [fst snd]. rewrite cos_plus, sin_plus. f_equal; ring.
Qed.

Lemma map_ext_eq {A B : Type} (f g : A -> B) (l : list A) :
  (forall x, f x = g x) -> map f l = map g l.
Proof. intros H. induction l as [|x l IH]; cbn [map]; [reflexivity|]. now rewrite H, IH. Qed.

(** X2. Rotating by a and then by b about one centre is rotating by a + b. *)
Theorem rotations_compose :
  forall (coordinates : list coordinate) (center : coordinate) (a b : R),
    rotate_coordinates (rotate_coordinates coordinates a center) b center
    = rotate_coordinates coordinates (a + b) center.
Proof.
  intros coordinates center a b.
  rewrite !rotate_coordinates_map, map_map, radians_plus.
  apply map_ext_eq. intros p. apply rotate_about_compose.
Qed.

Lemma rotate_about_dist2 (center p q : coordinate) (theta : R) :
  dist2 (rotate_about center theta p) (rotate_about center theta q) = dist2 p q.
Proof.
  destruct center as [clat clon], p as [plat plon], q as [qlat qlon].
  unfold dist2, rotate_about. cbn [fst snd].
  pose proof (sin2_cos2 theta) as Hone. unfold Rsqr in Hone.
  set (c := cos theta) in *. set (s := sin theta) in *.
  replace ((plat - clat) * c - (plon - clon) * s + clat
           - ((qlat - clat) * c - (qlon - clon) * s + clat))
    with ((plat - qlat) * c - (plon - qlon) * s) by ring.
  replace ((plat - clat) * s + (plon - clon) * c + clon
           - ((qlat - clat) * s + (qlon - clon) * c + clon))
    with ((plat - qlat) * s + (plon - qlon) * c) by ring.
  replace (((plat - qlat) * c - (plon - qlon) * s) * ((plat - qlat) * c - (plon - qlon) * s)
           + ((plat - qlat) * s + (plon - qlon) * c) * ((plat - qlat) * s + (plon - qlon) * c))
    with (((plat - qlat) * (plat - qlat) + (plon - qlon) * (plon - qlon)) * (s * s + c * c))
    by ring.
  rewrite Hone. ring.
Qed.

(** X3. A rotation keeps the distance between any two points of the path and
    the distance of every point to the centre. *)
Theorem rotation_preserves_distances :
  forall (coordinates : list coordinate) (center : coordinate) (angle : R)
         (i j : nat) (p q : coordinate),
    nth_error coordinates i = Some p ->
    nth_error coordinates j = Some q ->
    exists p' q',
      nth_error (rotate_coordinates coordinates angle center) i = Some p'
      /\ nth_error (rotate_coordinates coordinates angle center) j = Some q'
      /\ dist2 p' q' = dist2 p q
      /\ dist2 p' center = dist2 p center.
Proof.
  intros coordinates center angle i j p q Hp Hq.
  exists (rotate_about center (radians angle) p),
         (rotate_about center (radians angle) q).
  rewrite rotate_coordinates_map, !nth_error_map, Hp, Hq.
  split; [reflexivity|]. split; [reflexivity|]. split.
  - apply rotate_about_dist2.
  - transitivity (dist2 (rotate_about center (radians angle) p)
                         (rotate_about center (radians angle) center)).
    + now rewrite rotate_about_center.
    + apply rotate_about_dist2.
Qed.

(** ** The window of the figure *)

(** X4. On a non-empty path and for every non-zero zoom, each axis window has
    the centre of the unrotated path as its midpoint and the range of the
    rotated path divided by the zoom as its width. *)
Theorem window_is_centered_and_scaled :
  forall (coordinates : list coordinate) (zoom rotation : R),
    coordinates <> [] -> zoom <> 0 ->
    exists center hi_lat lo_lat hi_lon lo_lon fig,
      path_center coordinates = Ok center
      /\ plot_path coordinates zoom rotation = ([Shown fig], Ok tt)
      /\ is_max hi_lat (plot_ys fig) /\ is_min lo_lat (plot_ys fig)
      /\ is_max hi_lon (plot_xs fig) /\ is_min lo_lon (plot_xs fig)
      /\ (fst (ylim fig) + snd (ylim fig)) / 2 = fst center
      /\ (fst (xlim fig) + snd (xlim fig)) / 2 = snd center
      /\ snd (ylim fig) - fst (ylim fig) = (hi_lat - lo_lat) / zoom
      /\ snd (xlim fig) - fst (xlim fig) = (hi_lon - lo_lon) / zoom.
Proof.
  intros coordinates zoom rotation Hne Hzoom.
  destruct (plot_path_shown coordinates zoom rotation Hne Hzoom)
    as (center & hi_lat & lo_lat & hi_lon & lo_lon & Hc & H1 & H2 & H3 & H4 & Hplot).
  cbv zeta in H1, H2, H3, H4, Hplot.
  eexists center, hi_lat, lo_lat, hi_lon, lo_lon, _.
  split; [exact Hc|]. split; [exact Hplot|]. cbn [plot_xs plot_ys xlim ylim fst snd].
  do 4 (split; [assumption|]). repeat split; field; assumption.
Qed.

(** ** Presses of the button *)

(** X5. A press of the button depends on the data and the four controls
    only: the remembered coordinates become the new filter result, the
    previous ones change nothing, the invalid-time message is never
    printed, and at most one event is emitted. *)
Theorem press_forgets_the_previous_view :
  forall (data : list sample) (st st' : shell_state) (zoom rotation : R)
         (start_time end_time : string),
    fst (update_plot data st zoom rotation start_time end_time)
      = Filtered (filter_coordinates_by_time data start_time end_time)
    /\ update_plot data st zoom rotation start_time end_time
       = update_plot data st' zoom rotation start_time end_time
    /\ ~ reports_invalid_time
           (fst (snd (update_plot data st zoom rotation start_time end_time)))
    /\ (List.length (fst (snd (update_plot data st zoom rotation start_time end_time)))
        <= 1)%nat.
Proof.
  intros data st st' zoom rotation start_time end_time.
  split; [reflexivity|]. split; [reflexivity|].
  split; [apply update_plot_never_reports_invalid_time|].
  rewrite update_plot_always_filters. cbn [snd].
  destruct (plot_path_trace (filter_coordinates_by_time data start_time end_time)
                            zoom rotation) as [-> | [-> | [fig ->]]]; cbn; lia.
Qed.

(** X6. With the zoom in the range of its slider, 1 to 10, a press of the
    button raises nothing and emits exactly one event, the empty-path
    message or one figure; it is a figure whenever the filter keeps a
    sample. *)
Theorem slider_zoom_never_raises :
  forall (data : list sample) (st : shell_state) (zoom rotation : R)
         (start_time end_time : string),
    zoom_slider_range zoom ->
    snd (snd (update_plot data st zoom rotation start_time end_time)) = Ok tt
    /\ one_event (fst (snd (update_plot data st zoom rotation start_time end_time)))
    /\ (filter_coordinates_by_time data start_time end_time <> [] ->
          renders (fst (snd (update_plot data st zoom rotation start_time end_time)))).
Proof.
  intros data st zoom rotation start_time end_time [Hlo Hhi].
  rewrite update_plot_always_filters. cbn [snd].
  destruct (filter_coordinates_by_time data start_time end_time) as [|p rest] eqn:Hf.
  - cbn. split; [reflexivity|]. split; [now left | congruence].
  - assert (Hne : p :: rest <> []) by discriminate.
    assert (Hzoom : zoom <> 0) by lra.
    destruct (plot_path_shown (p :: rest) zoom rotation Hne Hzoom)
      as (center & hi_lat & lo_lat & hi_lon & lo_lon & _ & _ & _ & _ & _ & Hplot).
    cbv zeta in Hplot. rewrite Hplot. cbn [fst snd].
    split; [reflexivity|]. split.
    + right. eexists. reflexivity.
    + intros _. eexists. left. reflexivity.
Qed.

(** ** The loader, counted *)

Lemma flatten_spec_all_points (gpx : GPX) :
  flatten_spec gpx = flat_map timed_point (all_points gpx).
Proof.
  destruct gpx as [trks]. unfold flatten_spec, all_points. cbn [tracks].
  induction trks as [|track rest IH]; cbn [flat_map]; [reflexivity|].
  rewrite flat_map_app, <- IH. f_equal.
  induction (segments track) as [|seg segs IHs]; cbn [flat_map]; [reflexivity|].
  now rewrite flat_map_app, IHs.
Qed.

Lemma timed_points_length (pts : list GPXTrackPoint) :
  List.length (flat_map timed_point pts) = List.length (filter has_time pts).
Proof.
  induction pts as [|p rest IH]; cbn [flat_map filter]; [reflexivity|].
  rewrite length_app, IH. unfold timed_point, has_time.
  destruct (time p); reflexivity.
Qed.

Lemma filter_all {A : Type} (f : A -> bool) (l : list A) :
  forallb f l = true -> filter f l = l.
Proof.
  induction l as [|x l IH]; cbn [forallb filter]; [reflexivity|].
  intros H. apply andb_prop in H as [Hx Hl]. now rewrite Hx, IH.
Qed.

Lemma timed_points_all (pts : list GPXTrackPoint) :
  forallb has_time pts = true ->
  map (fun s : sample => (fst (fst s), snd (fst s))) (flat_map timed_point pts)
  = map (fun p => (latitude p, longitude p)) pts.
Proof.
  induction pts as [|p rest IH]; cbn [forallb flat_map map]; [reflexivity|].
  intros H. apply andb_prop in H as [Hp Hrest]. unfold has_time in Hp.
  unfold timed_point at 1. destruct (time p) as [t|]; [|discriminate].
  cbn [app map fst snd]. now rewrite IH.
Qed.

(** X7. The loader returns as many samples as the document has points with a
    timestamp, never more than it has points; when every point is timed,
    it returns the coordinates of all points in file order. *)
Theorem loader_counts_timed_points :
  forall (file_system : string -> option string)
         (gpxpy_parse : string -> result GPX)
         (file_path text : string) (gpx : GPX),
    file_system file_path = Some text ->
    gpxpy_parse text = Ok gpx ->
    exists data,
      parse_gpx file_system gpxpy_parse file_path = Ok data
      /\ List.length data = List.length (filter has_time (all_points gpx))
      /\ (List.length data <= List.length (all_points gpx))%nat
      /\ (forallb has_time (all_points gpx) = true ->
            List.length data = List.length (all_points gpx))
      /\ (forallb has_time (all_points gpx) = true ->
            map (fun s => (fst (fst s), snd (fst s))) data
            = map (fun p => (latitude p, longitude p)) (all_points gpx)).
Proof.
  intros file_system gpxpy_parse file_path text gpx Hfile Hparse.
  exists (flat_map timed_point (all_points gpx)).
  assert (Hrun : parse_gpx file_system gpxpy_parse file_path
                 = Ok (flat_map timed_point (all_points gpx))).
  { unfold parse_gpx, open_read. rewrite Hfile, Hparse.
    destruct gpx as [trks]. cbn [tracks].
    now rewrite tracks_loop_spec, flatten_spec_all_points. }
  split; [exact Hrun|]. rewrite timed_points_length.
  split; [reflexivity|]. split; [apply filter_length_le|].
  split.
  - intros Hb. now rewrite (filter_all _ _ Hb).
  - apply timed_points_all.
Qed.

(** ** Instances *)

Lemma demo_samples_valid : Forall (fun s => valid_time (snd s)) demo_samples.
Proof. repeat (constructor; [split; cbn; lia|]). constructor. Defined.

Lemma time_filter_is_chronological_witness :
  (valid_time (mkDatetime 2024 5 1 8 0 0) /\ valid_time (mkDatetime 2024 5 1 12 0 0)
   /\ Forall (fun s => valid_time (snd s)) demo_samples)
  /\ filter_coordinates_by_time demo_samples "08:00" "12:00" = [(0, 0); (1, 1)].
Proof.
  assert (H1 : valid_time (mkDatetime 2024 5 1 8 0 0)) by (split; cbn; lia).
  assert (H2 : valid_time (mkDatetime 2024 5 1 12 0 0)) by (split; cbn; lia).
  split; [split; [exact H1 | split; [exact H2 | exact demo_samples_valid]]|].
  exact (time_filter_is_chronological demo_samples _ _ H1 H2 demo_samples_valid).
Defined.

Lemma rotation_preserves_distances_witness :
  (nth_error [(0, 0); (3, 4)] 0 = Some (0, 0)
   /\ nth_error [(0, 0); (3, 4)] 1 = Some (3, 4))
  /\ exists p' q',
       nth_error (rotate_coordinates [(0, 0); (3, 4)] 30 (1, 1)) 0 = Some p'
       /\ nth_error (rotate_coordinates [(0, 0); (3, 4)] 30 (1, 1)) 1 = Some q'
       /\ dist2 p' q' = 25.
Proof.
  split; [split; reflexivity|].
  destruct (rotation_preserves_distances [(0, 0); (3, 4)] (1, 1) 30 0 1
              (0, 0) (3, 4) eq_refl eq_refl) as (p' & q' & Hp & Hq & Hd & _).
  exists p', q'. split; [exact Hp|]. split; [exact Hq|].
  rewrite Hd. unfold dist2. cbn [fst snd]. ring.
Defined.

Lemma two_point_path_nonempty : [(0, 0); (2, 2)] <> ([] : list coordinate).
Proof. discriminate. Defined.

Lemma two_is_not_zero : 2 <> 0.
Proof. lra. Defined.

Lemma window_is_centered_and_scaled_witness :
  ([(0, 0); (2, 2)] <> [] /\ 2 <> 0)
  /\ exists center fig,
       path_center [(0, 0); (2, 2)] = Ok center
       /\ plot_path [(0, 0); (2, 2)] 2 30 = ([Shown fig], Ok tt)
       /\ (fst (ylim fig) + snd (ylim fig)) / 2 = fst center
       /\ (fst (xlim fig) + snd (xlim fig)) / 2 = snd center.
Proof.
  split; [split; [exact two_point_path_nonempty | exact two_is_not_zero]|].
  destruct (window_is_centered_and_scaled [(0, 0); (2, 2)] 2 30
              two_point_path_nonempty two_is_not_zero)
    as (center & _ & _ & _ & _ & fig & Hc & Hp & _ & _ & _ & _ & Hy & Hx & _).
  exists center, fig. auto.
Defined.

Lemma slider_zoom_never_raises_witness :
  zoom_slider_range 2
  /\ snd (snd (update_plot demo_samples Unfiltered 2 90 "08:00" "12:00")) = Ok tt.
Proof.
  assert (Hz : zoom_slider_range 2) by (unfold zoom_slider_range; lra).
  split; [exact Hz|].
  exact (proj1 (slider_zoom_never_raises demo_samples Unfiltered 2 90
                  "08:00" "12:00" Hz)).
Defined.

Lemma loader_counts_timed_points_witness :
  (demo_files "run.gpx" = Some "<gpx>...</gpx>"%string
   /\ demo_parse "<gpx>...</gpx>" = Ok demo_document)
  /\ exists data,
       parse_gpx demo_files demo_parse "run.gpx" = Ok data
       /\ List.length data = 2%nat
       /\ (List.length data <= 3)%nat.
Proof.
  split; [split; reflexivity|].
  destruct (loader_counts_timed_points demo_files demo_parse "run.gpx"
              "<gpx>...</gpx>" demo_document eq_refl eq_refl)
    as (data & Hrun & Hlen & Hle & _).
  exists data. split; [exact Hrun|]. split; [exact Hlen | exact Hle].
Defined.